(** * pyrabbit.http: the HTTP client of the RabbitMQ management API

    A shallow embedding of [src/pyrabbit/http.py]: the three exception
    classes, the [urls] path-template table, the [HTTPClient] object and
    each of its methods, written in a small state-and-exception monad.
    The HTTP transport (httplib2) and the JSON decoder are external
    collaborators; they are Section variables of the embedding. *)

From Stdlib Require Import String Ascii ZArith List Bool Lia.
From Stdlib Require Import DecimalString.
From Stdlib.Strings Require Byte.
Import ListNotations.

Local Open Scope string_scope.
Local Open Scope Z_scope.

(** ** Python values used by the module *)

(** A Python [bytes] object. *)
Definition bytes := list Byte.byte.

(** [str(n)] for a Python [int]. *)
Definition str_of_int (n : Z) : string :=
  NilZero.string_of_int (Z.to_int n).

(** An exception raised by code outside this module (httplib2, the socket
    layer, the codecs, json, the [%] operator).  Only what [do_call]
    looks at is kept: the text of [type(out)] and the text of [str(out)].
    All of them derive from [Exception]; interpreter signals such as
    KeyboardInterrupt are outside the model. *)
Record ForeignExc : Type := mkForeignExc {
  exc_type : string;
  exc_str : string
}.

(** [class HTTPError(Exception)]: the four attributes set by [__init__]. *)
Record HTTPError : Type := mkHTTPError {
  status : Z;
  reason : string;
  path : string;
  output : string
}.

(** What a [raise] can carry. *)
Inductive PyExc : Type :=
| ExcHTTPError (e : HTTPError)
| ExcNetworkError (msg : string)
| ExcAPIError (msg : string)
| ExcForeign (e : ForeignExc).

(** A computation either returns or raises. *)
Inductive Outcome (A : Type) : Type :=
| Return (a : A)
| Raise (e : PyExc).
Arguments Return {A} a.
Arguments Raise {A} e.

Definition TypeError (msg : string) : PyExc :=
  ExcForeign (mkForeignExc "<class 'TypeError'>" msg).

Definition ValueError (msg : string) : PyExc :=
  ExcForeign (mkForeignExc "<class 'ValueError'>" msg).

Definition KeyError (key : string) : PyExc :=
  ExcForeign (mkForeignExc "<class 'KeyError'>" ("'" ++ key ++ "'")).

(** ** The [%] operator on strings

    [tmpl % args] for string arguments: [%s] takes the next argument,
    [%%] is a percent sign.  Too few or too many arguments raise
    TypeError, as in Python; the other conversions do not occur in this
    module and raise ValueError here. *)
Fixpoint pyformat (tmpl : string) (args : list string) : Outcome string :=
  match tmpl with
  | EmptyString =>
      match args with
      | [] => Return EmptyString
      | _ :: _ =>
          Raise (TypeError "not all arguments converted during string formatting")
      end
  | String c rest =>
      if Ascii.eqb c "%" then
        match rest with
        | EmptyString => Raise (ValueError "incomplete format")
        | String d rest' =>
            if Ascii.eqb d "s" then
              match args with
              | [] => Raise (TypeError "not enough arguments for format string")
              | a :: args' =>
                  match pyformat rest' args' with
                  | Return out => Return (a ++ out)
                  | Raise e => Raise e
                  end
              end
            else if Ascii.eqb d "%" then
              match pyformat rest' args with
              | Return out => Return (String "%" out)
              | Raise e => Raise e
              end
            else Raise (ValueError "unsupported format character")
        end
      else
        match pyformat rest args with
        | Return out => Return (String c out)
        | Raise e => Raise e
        end
  end.

(** ** [os.path.join] (posixpath), two components *)

Definition startswith (pre s : string) : bool := String.prefix pre s.

(** [s.endswith(suf)]: [suf] is [s] or a suffix of its tail. *)
Fixpoint endswith (suf s : string) : bool :=
  String.eqb s suf ||
  match s with
  | EmptyString => false
  | String _ s' => endswith suf s'
  end.

Definition path_join (a b : string) : string :=
  if startswith "/" b then b
  else if String.eqb a "" || endswith "/" a then a ++ b
  else a ++ "/" ++ b.

(** ** The [urls] class attribute *)

Definition urls : list (string * string) :=
  [ ("overview", "overview");
    ("all_queues", "queues");
    ("all_exchanges", "exchanges");
    ("all_channels", "channels");
    ("all_connections", "connections");
    ("all_nodes", "nodes");
    ("all_vhosts", "vhosts");
    ("all_users", "users");
    ("whoami", "whoami");
    ("queues_by_vhost", "queues/%s");
    ("queues_by_name", "queues/%s/%s");
    ("exchanges_by_vhost", "exchanges/%s");
    ("exchange_by_name", "exchanges/%s/%s");
    ("live_test", "aliveness-test/%s");
    ("purge_queue", "queues/%s/%s/contents");
    ("connections_by_name", "connections/%s") ].

(** [d[key]] on a dict with string keys. *)
Fixpoint dict_get (d : list (string * string)) (key : string) : Outcome string :=
  match d with
  | [] => Raise (KeyError key)
  | (k, v) :: d' => if String.eqb k key then Return v else dict_get d' key
  end.

(** ** The objects of the module and of httplib2 *)

(** [httplib2.Response]: the attributes read by this module. *)
Record Response : Type := mkResponse {
  resp_status : Z;
  resp_reason : string;
  resp_headers : list (string * string)
}.

(** [httplib2.Http]: the credentials added by [add_credentials]. *)
Record Http : Type := mkHttp {
  credentials : list (string * string)
}.

Definition add_credentials (c : Http) (uname passwd : string) : Http :=
  mkHttp (credentials c ++ [(uname, passwd)]).

(** The instance attributes of [HTTPClient]. *)
Record HTTPClient : Type := mkHTTPClient {
  client : Http;
  base_url : string
}.

(** One call of [Http.request(uri, method)] as seen on the wire. *)
Record Request : Type := mkRequest {
  req_uri : string;
  req_method : string
}.

(** What is outside the module: the HTTP transport behind
    [httplib2.Http.request], with whatever state the network and the
    broker have, the [utf8] codec and [json.loads]. *)
Class Collaborators : Type := {
  Net : Type;
  Json : Type;
  http_request : Http -> string -> string -> Net ->
                 (ForeignExc + Response * bytes) * Net;
  utf8_decode : bytes -> ForeignExc + string;
  json_loads : string -> ForeignExc + Json
}.

(** [HTTPError.__init__(status, reason, path)]. *)
Definition HTTPError_init (status : Z) (reason path : string) : Outcome HTTPError :=
  match pyformat "%s - %s (%s)" [str_of_int status; reason; path] with
  | Return out => Return (mkHTTPError status reason path out)
  | Raise e => Raise e
  end.

(** [type(out)] and [str(out)] as [%s] prints them. *)
Definition type_repr (out : PyExc) : string :=
  match out with
  | ExcHTTPError _ => "<class 'pyrabbit.http.HTTPError'>"
  | ExcNetworkError _ => "<class 'pyrabbit.http.NetworkError'>"
  | ExcAPIError _ => "<class 'pyrabbit.http.APIError'>"
  | ExcForeign e => exc_type e
  end.

Definition exc_to_str (out : PyExc) : string :=
  match out with
  | ExcHTTPError e => output e
  | ExcNetworkError msg => msg
  | ExcAPIError msg => msg
  | ExcForeign e => exc_str e
  end.

(** Truth value of an optional string argument: [None] and [''] are false. *)
Definition truthy (v : option string) : bool :=
  match v with
  | None => false
  | Some s => negb (String.eqb s "")
  end.

(** [HTTPClient.__init__(server, uname, passwd)]. *)
Definition HTTPClient_init (server uname passwd : string) : Outcome HTTPClient :=
  let c := add_credentials (mkHttp []) uname passwd in
  match pyformat "http://%s/api" [server] with
  | Return url => Return (mkHTTPClient c url)
  | Raise e => Raise e
  end.

(** ** The methods of [HTTPClient] *)

Section Methods.

Context {W : Collaborators}.

(** The state a method runs in: the instance, the world behind the
    transport, and the requests sent so far. *)
Record State : Type := mkState {
  self : HTTPClient;
  net : Net;
  wire : list Request
}.

(** Statements: state passing, with the state kept when an exception is
    raised. *)
Definition Py (A : Type) : Type := State -> Outcome A * State.

Definition ret {A : Type} (a : A) : Py A := fun s => (Return a, s).

Definition raise {A : Type} (e : PyExc) : Py A := fun s => (Raise e, s).

Definition bind {A B : Type} (m : Py A) (k : A -> Py B) : Py B :=
  fun s =>
    match m s with
    | (Return a, s') => k a s'
    | (Raise e, s') => (Raise e, s')
    end.

Definition lift {A : Type} (o : Outcome A) : Py A := fun s => (o, s).

Definition lift_foreign {A : Type} (o : ForeignExc + A) : Py A :=
  fun s =>
    match o with
    | inl e => (Raise (ExcForeign e), s)
    | inr a => (Return a, s)
    end.

(** [try: body except ...: handler]; the handler answers [None] for an
    exception no [except] clause matches. *)
Definition try_except {A : Type} (body : Py A)
    (handler : PyExc -> option (Py A)) : Py A :=
  fun s =>
    match body s with
    | (Return a, s') => (Return a, s')
    | (Raise e, s') =>
        match handler e with
        | Some h => h s'
        | None => (Raise e, s')
        end
    end.

Definition get_self : Py HTTPClient := fun s => (Return (self s), s).

(** Attribute assignment on the instance; no method below uses it. *)
Definition set_self (c : HTTPClient) : Py unit :=
  fun s => (Return tt, mkState c (net s) (wire s)).

Local Notation "x <- m ;; k" := (bind m (fun x => k))
  (at level 61, m at next level, right associativity).
Local Notation "' pat <- m ;; k" := (bind m (fun x => match x with pat => k end))
  (at level 61, pat pattern, m at next level, right associativity).

(** [c.request(path, reqtype)]. *)
Definition client_request (c : Http) (path reqtype : string)
  : Py (Response * bytes) :=
  fun s =>
    let (ans, n') := http_request c path reqtype (net s) in
    (match ans with
     | inl e => Raise (ExcForeign e)
     | inr rc => Return rc
     end,
     mkState (self s) n' (wire s ++ [mkRequest path reqtype])).

Definition decode_json_content (content : bytes) : Py Json :=
  str_ct <- lift_foreign (utf8_decode content) ;;
  py_ct <- lift_foreign (json_loads str_ct) ;;
  ret py_ct.

Definition do_call (path reqtype : string) : Py (Response * bytes) :=
  this <- get_self ;;
  ' (resp, content) <-
    try_except (client_request (client this) path reqtype)
      (fun out =>
         Some (msg <- lift (pyformat "Error: %s %s"
                              [type_repr out; exc_to_str out]) ;;
               raise (ExcNetworkError msg))) ;;
  if negb (resp_status resp =? 200) then
    e <- lift (HTTPError_init (resp_status resp) (resp_reason resp) path) ;;
    raise (ExcHTTPError e)
  else ret (resp, content).

Definition is_alive (vhost : string) : Py bool :=
  this <- get_self ;;
  tmpl <- lift (dict_get urls "live_test") ;;
  p <- lift (pyformat tmpl [vhost]) ;;
  let uri := path_join (base_url this) p in
  ' (resp, content) <-
    try_except (do_call uri "GET")
      (fun exc =>
         match exc with
         | ExcHTTPError e =>
             Some (if status e =? 404 then
                     msg <- lift (pyformat "No vhost named '%s'" [vhost]) ;;
                     raise (ExcAPIError msg)
                   else raise exc)
         | _ => None
         end) ;;
  if resp_status resp =? 200 then ret true else ret false.

(** The default of [is_alive]'s [vhost]. *)
Definition is_alive_default_vhost : string := "%2F".

Definition get_whoami : Py Json :=
  this <- get_self ;;
  tmpl <- lift (dict_get urls "whoami") ;;
  let path := path_join (base_url this) tmpl in
  ' (resp, content) <- do_call path "GET" ;;
  whoami <- decode_json_content content ;;
  ret whoami.

Definition get_users : Py Json :=
  this <- get_self ;;
  tmpl <- lift (dict_get urls "all_users") ;;
  let path := path_join (base_url this) tmpl in
  ' (resp, content) <-
    try_except (do_call path "GET")
      (fun exc =>
         match exc with
         | ExcHTTPError e =>
             Some (if status e =? 401 then
                     raise (ExcAPIError "Only admin can access user data")
                   else raise exc)
         | _ => None
         end) ;;
  users <- decode_json_content content ;;
  ret users.

Definition get_overview : Py Json :=
  this <- get_self ;;
  tmpl <- lift (dict_get urls "overview") ;;
  ' (resp, content) <- do_call (path_join (base_url this) tmpl) "GET" ;;
  overview_data <- decode_json_content content ;;
  ret overview_data.

Definition get_all_vhosts : Py Json :=
  this <- get_self ;;
  tmpl <- lift (dict_get urls "all_vhosts") ;;
  ' (resp, content) <- do_call (path_join (base_url this) tmpl) "GET" ;;
  vhost_data <- decode_json_content content ;;
  ret vhost_data.

Definition get_queues (vhost : option string) : Py Json :=
  path <-
    (if truthy vhost then
       tmpl <- lift (dict_get urls "queues_by_vhost") ;;
       lift (pyformat tmpl (match vhost with Some v => [v] | None => [] end))
     else lift (dict_get urls "all_queues")) ;;
  this <- get_self ;;
  ' (resp, content) <- do_call (path_join (base_url this) path) "GET" ;;
  queues <- decode_json_content content ;;
  ret queues.

Definition get_queue (vhost name : string) : Py Json :=
  tmpl <- lift (dict_get urls "queues_by_name") ;;
  path <- lift (pyformat tmpl [vhost; name]) ;;
  this <- get_self ;;
  ' (resp, content) <- do_call (path_join (base_url this) path) "GET" ;;
  queue <- decode_json_content content ;;
  ret queue.

(** The [return True] that follows the [try] statement is the last step
    of the protected body here: it raises nothing, so no handler sees
    it. *)
Definition purge_queue (vhost name : string) : Py bool :=
  tmpl <- lift (dict_get urls "purge_queue") ;;
  path <- lift (pyformat tmpl [vhost; name]) ;;
  this <- get_self ;;
  try_except
    (_ <- do_call (path_join (base_url this) path) "DELETE" ;;
     ret true)
    (fun exc =>
       match exc with
       | ExcHTTPError e =>
           Some (if status e =? 204 then ret true else raise exc)
       | _ => None
       end).

Definition get_exchanges (vhost : option string) : Py Json :=
  path <-
    (if truthy vhost then
       tmpl <- lift (dict_get urls "exchanges_by_vhost") ;;
       lift (pyformat tmpl (match vhost with Some v => [v] | None => [] end))
     else lift (dict_get urls "all_exchanges")) ;;
  this <- get_self ;;
  ' (resp, content) <- do_call (path_join (base_url this) path) "GET" ;;
  exchanges <- decode_json_content content ;;
  ret exchanges.

Definition get_exchange (vhost name : string) : Py Json :=
  tmpl <- lift (dict_get urls "exchange_by_name") ;;
  path <- lift (pyformat tmpl [vhost; name]) ;;
  this <- get_self ;;
  ' (resp, content) <- do_call (path_join (base_url this) path) "GET" ;;
  exch <- decode_json_content content ;;
  ret exch.

Definition get_connections (name : option string) : Py Json :=
  path <-
    (if truthy name then lift (dict_get urls "connections_by_name")
     else lift (dict_get urls "all_connections")) ;;
  this <- get_self ;;
  ' (resp, content) <- do_call (path_join (base_url this) path) "GET" ;;
  conns <- decode_json_content content ;;
  ret conns.

Definition get_channels : Py Json :=
  path <- lift (dict_get urls "all_channels") ;;
  this <- get_self ;;
  ' (resp, content) <- do_call (path_join (base_url this) path) "GET" ;;
  chans <- decode_json_content content ;;
  ret chans.

End Methods.

(** ** The public interface as a whole *)

Section Interface.

Context {W : Collaborators}.

(** A call of one public method of an [HTTPClient], with its arguments. *)
Inductive Op : Type :=
| Call_decode_json_content (content : bytes)
| Call_do_call (path reqtype : string)
| Call_is_alive (vhost : string)
| Call_get_whoami
| Call_get_users
| Call_get_overview
| Call_get_all_vhosts
| Call_get_queues (vhost : option string)
| Call_get_queue (vhost name : string)
| Call_purge_queue (vhost name : string)
| Call_get_exchanges (vhost : option string)
| Call_get_exchange (vhost name : string)
| Call_get_connections (name : option string)
| Call_get_channels.

(** What a method hands back. *)
Inductive PyVal : Type :=
| VBool (b : bool)
| VJson (j : Json)
| VResponse (resp : Response) (content : bytes).

Definition fmap {A B : Type} (f : A -> B) (m : Py A) : Py B :=
  bind m (fun a => ret (f a)).

Definition call (op : Op) : Py PyVal :=
  match op with
  | Call_decode_json_content content => fmap VJson (decode_json_content content)
  | Call_do_call path reqtype =>
      fmap (fun rc => VResponse (fst rc) (snd rc)) (do_call path reqtype)
  | Call_is_alive vhost => fmap VBool (is_alive vhost)
  | Call_get_whoami => fmap VJson get_whoami
  | Call_get_users => fmap VJson get_users
  | Call_get_overview => fmap VJson get_overview
  | Call_get_all_vhosts => fmap VJson get_all_vhosts
  | Call_get_queues vhost => fmap VJson (get_queues vhost)
  | Call_get_queue vhost name => fmap VJson (get_queue vhost name)
  | Call_purge_queue vhost name => fmap VBool (purge_queue vhost name)
  | Call_get_exchanges vhost => fmap VJson (get_exchanges vhost)
  | Call_get_exchange vhost name => fmap VJson (get_exchange vhost name)
  | Call_get_connections name => fmap VJson (get_connections name)
  | Call_get_channels => fmap VJson get_channels
  end.

(** The methods whose result is the decoded body of a GET. *)
Definition is_get_operation (op : Op) : bool :=
  match op with
  | Call_get_whoami | Call_get_users | Call_get_overview
  | Call_get_all_vhosts | Call_get_queues _ | Call_get_queue _ _
  | Call_get_exchanges _ | Call_get_exchange _ _
  | Call_get_connections _ | Call_get_channels => true
  | _ => false
  end.

(** The answer the transport gives in state [s] to request [r]. *)
Definition answer (s : State) (r : Request)
  : ForeignExc + Response * bytes :=
  fst (http_request (client (self s)) (req_uri r) (req_method r) (net s)).

(** [json.loads] applied to the UTF-8 decoding of [content], as a value. *)
Definition json_loads_utf8 (content : bytes) : Outcome Json :=
  match utf8_decode content with
  | inl e => Raise (ExcForeign e)
  | inr str_ct =>
      match json_loads str_ct with
      | inl e => Raise (ExcForeign e)
      | inr py_ct => Return py_ct
      end
  end.

(** The [urls] entry each method is for and the arguments that go into
    its placeholders; [None] for the two methods that build no path.  A
    method with an optional argument takes the entry with a placeholder
    when the argument is given and not empty. *)
Definition template_of (op : Op) : option (string * list string) :=
  match op with
  | Call_decode_json_content _ | Call_do_call _ _ => None
  | Call_is_alive vhost => Some ("live_test", [vhost])
  | Call_get_whoami => Some ("whoami", [])
  | Call_get_users => Some ("all_users", [])
  | Call_get_overview => Some ("overview", [])
  | Call_get_all_vhosts => Some ("all_vhosts", [])
  | Call_get_queues (Some vhost) =>
      if truthy (Some vhost) then Some ("queues_by_vhost", [vhost])
      else Some ("all_queues", [])
  | Call_get_queues None => Some ("all_queues", [])
  | Call_get_queue vhost name => Some ("queues_by_name", [vhost; name])
  | Call_purge_queue vhost name => Some ("purge_queue", [vhost; name])
  | Call_get_exchanges (Some vhost) =>
      if truthy (Some vhost) then Some ("exchanges_by_vhost", [vhost])
      else Some ("all_exchanges", [])
  | Call_get_exchanges None => Some ("all_exchanges", [])
  | Call_get_exchange vhost name => Some ("exchange_by_name", [vhost; name])
  | Call_get_connections (Some name) =>
      if truthy (Some name) then Some ("connections_by_name", [name])
      else Some ("all_connections", [])
  | Call_get_connections None => Some ("all_connections", [])
  | Call_get_channels => Some ("all_channels", [])
  end.

(** The URL the specification gives for a call on a client made for
    [server]: the base URL [http://<server>/api], a slash, and the
    method's template with its arguments substituted. *)
Definition spec_request_uri (server : string) (op : Op) : option string :=
  match template_of op with
  | None => None
  | Some (key, args) =>
      match dict_get urls key with
      | Raise _ => None
      | Return tmpl =>
          match pyformat tmpl args with
          | Raise _ => None
          | Return p => Some ("http://" ++ server ++ "/api/" ++ p)
          end
      end
  end.

(** [get_connections] called with a name that is not empty. *)
Definition names_a_connection (op : Op) : bool :=
  match op with
  | Call_get_connections name => truthy name
  | _ => false
  end.

(** The state once request [r] has gone out from state [s]. *)
Definition after_request (s : State) (r : Request) : State :=
  mkState (self s)
    (snd (http_request (client (self s)) (req_uri r) (req_method r) (net s)))
    (wire s ++ [r]).

(** The requests a run added to the wire. *)
Definition sent_by {A : Type} (m : Py A) (s : State) : list Request :=
  skipn (length (wire s)) (wire (snd (m s))).

End Interface.

(** ** A scripted broker, for concrete runs

    The network state is the list of answers still to be given; a
    request takes the first one, and times out when none is left.  The
    codec accepts ASCII, and the decoder the JSON literals without
    structure. *)
Module Scripted.

Inductive json : Type :=
| JNull
| JBool (b : bool)
| JEmptyList
| JEmptyDict.

Definition timed_out : ForeignExc :=
  mkForeignExc "<class 'socket.timeout'>" "timed out".

Definition request (c : Http) (uri method : string)
    (script : list (ForeignExc + Response * bytes))
  : (ForeignExc + Response * bytes) * list (ForeignExc + Response * bytes) :=
  match script with
  | [] => (inl timed_out, [])
  | a :: rest => (a, rest)
  end.

Fixpoint decode_ascii (content : bytes) : ForeignExc + string :=
  match content with
  | [] => inr EmptyString
  | b :: rest =>
      if (Byte.to_nat b <? 128)%nat then
        match decode_ascii rest with
        | inr s => inr (String (ascii_of_byte b) s)
        | inl e => inl e
        end
      else inl (mkForeignExc "<class 'UnicodeDecodeError'>"
                             "'utf-8' codec can't decode byte")
  end.

Definition loads (s : string) : ForeignExc + json :=
  if String.eqb s "null" then inr JNull
  else if String.eqb s "true" then inr (JBool true)
  else if String.eqb s "false" then inr (JBool false)
  else if String.eqb s "[]" then inr JEmptyList
  else if String.eqb s "{}" then inr JEmptyDict
  else inl (mkForeignExc "<class 'ValueError'>"
                         "No JSON object could be decoded").

Definition world : Collaborators :=
  {| Net := list (ForeignExc + Response * bytes);
     Json := json;
     http_request := request;
     utf8_decode := decode_ascii;
     json_loads := loads |}.

(** [b'[]'] *)
Definition empty_list_body : bytes := [Byte.x5b; Byte.x5d].

Definition ok (content : bytes) : ForeignExc + Response * bytes :=
  inr (mkResponse 200 "OK" [], content).

Definition status_only (code : Z) (why : string)
  : ForeignExc + Response * bytes :=
  inr (mkResponse code why [], []).

(** [HTTPClient('localhost:55672', 'guest', 'guest')] *)
Definition guest : HTTPClient :=
  mkHTTPClient (mkHttp [("guest", "guest")]) "http://localhost:55672/api".

Definition start (script : list (ForeignExc + Response * bytes))
  : @State world :=
  @mkState world guest script [].

(** The state when the script has run out and [sent] has gone out. *)
Definition finished (sent : list Request) : @State world :=
  @mkState world guest [] sent.

(** The broker has no such vhost. *)
Definition not_found : ForeignExc + Response * bytes :=
  status_only 404 "Not Found".

(** The broker refuses the credentials for this resource. *)
Definition unauthorized : ForeignExc + Response * bytes :=
  status_only 401 "Unauthorized".

(** A DELETE that went through. *)
Definition no_content : ForeignExc + Response * bytes :=
  status_only 204 "No Content".

End Scripted.

(** * Properties *)

Arguments str_of_int : simpl never.
Arguments path_join : simpl never.

(** ** Strings and paths *)

Lemma append_empty_r (s : string) : s ++ "" = s.
Proof.
  induction s as [|c s IH]; cbn; [reflexivity | now rewrite IH].
Qed.

Lemma append_assoc (a b c : string) : (a ++ b) ++ c = a ++ (b ++ c).
Proof.
  induction a as [|x a IH]; cbn; [reflexivity | now rewrite IH].
Qed.

Lemma endswith_slash_api (server : string) :
  endswith "/" (server ++ "/api") = false.
Proof.
  induction server as [|c server IH]; [reflexivity|].
  cbn [append endswith]. rewrite IH, orb_false_r.
  apply String.eqb_neq. intros E. injection E as _ E.
  destruct server; discriminate E.
Qed.

Lemma HTTPClient_init_run (server uname passwd : string) :
  HTTPClient_init server uname passwd =
  Return (mkHTTPClient (mkHttp [(uname, passwd)])
                       ("http://" ++ server ++ "/api")).
Proof. reflexivity. Qed.

(** A base URL made by [__init__] never ends in a slash, so a relative
    path is appended after one. *)
Lemma path_join_base (server p : string) :
  startswith "/" p = false ->
  path_join ("http://" ++ server ++ "/api") p =
  "http://" ++ server ++ "/api/" ++ p.
Proof.
  intros Hp. unfold path_join. rewrite Hp.
  assert (E : endswith "/" ("http://" ++ server ++ "/api") = false).
  { cbn [append endswith String.eqb Ascii.eqb Bool.eqb].
    rewrite (endswith_slash_api server).
    now destruct server. }
  rewrite E. cbn. now rewrite append_assoc.
Qed.

(** What [%] makes of a template starts as the template does. *)
Lemma pyformat_head (c : ascii) (rest : string) (args : list string) (p : string) :
  Ascii.eqb c "%" = false ->
  pyformat (String c rest) args = Return p ->
  exists q, p = String c q.
Proof.
  intros Hc. cbn [pyformat]. rewrite Hc.
  destruct (pyformat rest args) as [out | e]; [|discriminate].
  intros [= <-]. now exists out.
Qed.

(** No entry of [urls] gives an absolute path. *)
Lemma urls_entries_relative (key tmpl : string) (args : list string) (p : string) :
  dict_get urls key = Return tmpl ->
  pyformat tmpl args = Return p ->
  startswith "/" p = false.
Proof.
  unfold urls. cbn [dict_get]. intros Hkey Hfmt.
  repeat match type of Hkey with
  | (if ?b then _ else _) = _ =>
      destruct b;
      [ injection Hkey as <-;
        apply pyformat_head in Hfmt as [q ->]; reflexivity
      | ]
  end.
  discriminate Hkey.
Qed.

(** ** The methods, run from any state *)

Section Properties.

Context {W : Collaborators}.

Ltac run_methods :=
  unfold fmap, is_alive, get_whoami, get_users, get_overview, get_all_vhosts,
    get_queues, get_queue, purge_queue, get_exchanges, get_exchange,
    get_connections, get_channels, bind, try_except, get_self, lift, ret,
    raise;
  cbn [urls dict_get pyformat String.eqb Ascii.eqb Bool.eqb];
  repeat rewrite append_empty_r.

(** [do_call] sends exactly the request it is given and maps the
    transport's answer as follows. *)
Lemma do_call_run (path reqtype : string) (s : State) :
  do_call path reqtype s =
  (match answer s (mkRequest path reqtype) with
   | inl exc =>
       Raise (ExcNetworkError
                ("Error: " ++ exc_type exc ++ " " ++ exc_str exc))
   | inr (resp, content) =>
       if resp_status resp =? 200 then Return (resp, content)
       else Raise (ExcHTTPError
                     (mkHTTPError (resp_status resp) (resp_reason resp) path
                        (str_of_int (resp_status resp) ++ " - " ++
                         resp_reason resp ++ " (" ++ path ++ ")")))
   end,
   after_request s (mkRequest path reqtype)).
Proof.
  unfold do_call, bind, try_except, get_self, client_request, answer,
    after_request.
  cbn.
  destruct (http_request (client (self s)) path reqtype (net s))
    as [[exc | [resp content]] n']; cbn.
  - now rewrite append_empty_r.
  - now destruct (resp_status resp =? 200).
Qed.

Lemma decode_json_content_run (content : bytes) (s : State) :
  decode_json_content content s = (json_loads_utf8 content, s).
Proof.
  unfold decode_json_content, json_loads_utf8, bind, lift_foreign, ret.
  destruct (utf8_decode content) as [e | str_ct]; [reflexivity|].
  now destruct (json_loads str_ct).
Qed.

Lemma is_alive_run (vhost : string) (s : State) :
  is_alive vhost s =
  match do_call (path_join (base_url (self s)) ("aliveness-test/" ++ vhost))
                "GET" s with
  | (Return (resp, _), s') => (Return (resp_status resp =? 200), s')
  | (Raise (ExcHTTPError e), s') =>
      (Raise (if status e =? 404
              then ExcAPIError ("No vhost named '" ++ vhost ++ "'")
              else ExcHTTPError e), s')
  | (Raise exc, s') => (Raise exc, s')
  end.
Proof.
  run_methods. cbn [append].
  destruct (do_call _ "GET" s) as [[[resp content] | exc] s']; cbn.
  - now destruct (resp_status resp =? 200).
  - destruct exc as [e | msg | msg | e]; try reflexivity.
    now destruct (status e =? 404).
Qed.

Lemma get_users_run (s : State) :
  get_users s =
  match do_call (path_join (base_url (self s)) "users") "GET" s with
  | (Return (_, content), s') => (json_loads_utf8 content, s')
  | (Raise (ExcHTTPError e), s') =>
      (Raise (if status e =? 401
              then ExcAPIError "Only admin can access user data"
              else ExcHTTPError e), s')
  | (Raise exc, s') => (Raise exc, s')
  end.
Proof.
  run_methods.
  destruct (do_call _ "GET" s) as [[[resp content] | exc] s']; cbn.
  - rewrite decode_json_content_run.
    now destruct (json_loads_utf8 content).
  - destruct exc as [e | msg | msg | e]; try reflexivity.
    now destruct (status e =? 401).
Qed.

Lemma purge_queue_run (vhost name : string) (s : State) :
  purge_queue vhost name s =
  match do_call (path_join (base_url (self s))
                   ("queues/" ++ vhost ++ "/" ++ name ++ "/contents"))
                "DELETE" s with
  | (Return _, s') => (Return true, s')
  | (Raise (ExcHTTPError e), s') =>
      (if status e =? 204 then Return true else Raise (ExcHTTPError e), s')
  | (Raise exc, s') => (Raise exc, s')
  end.
Proof.
  run_methods. cbn [append].
  destruct (do_call _ "DELETE" s) as [[rc | exc] s']; cbn; [reflexivity|].
  destruct exc as [e | msg | msg | e]; try reflexivity.
  now destruct (status e =? 204).
Qed.

Ltac finish_get s :=
  cbn [truthy negb dict_get urls pyformat String.eqb Ascii.eqb Bool.eqb];
  repeat rewrite append_empty_r;
  destruct (do_call _ "GET" s) as [[[resp content] | exc] s'];
  cbn;
  [ rewrite decode_json_content_run;
    now destruct (json_loads_utf8 content)
  | try reflexivity ].

(** The path each GET method asks for, relative to the base URL, as the
    method computes it. *)
Lemma get_operation_run (op : Op) (s : State) :
  is_get_operation op = true ->
  exists p : string,
    call op s =
    match do_call (path_join (base_url (self s)) p) "GET" s with
    | (Return (_, content), s') =>
        (match json_loads_utf8 content with
         | Return j => Return (VJson j)
         | Raise e => Raise e
         end, s')
    | (Raise exc, s') =>
        (Raise (match op, exc with
                | Call_get_users, ExcHTTPError e =>
                    if status e =? 401
                    then ExcAPIError "Only admin can access user data"
                    else exc
                | _, _ => exc
                end), s')
    end.
Proof.
  intros Hop.
  destruct op as [ content | path reqtype | vhost | | | | | vhost | vhost name
                 | vhost name | vhost | vhost name | name | ];
    try discriminate Hop; cbn [call]; clear Hop.
  - exists "whoami". run_methods. finish_get s.
  - exists "users". run_methods. finish_get s.
    destruct exc as [e | msg | msg | e]; try reflexivity.
    now destruct (status e =? 401).
  - exists "overview". run_methods. finish_get s.
  - exists "vhosts". run_methods. finish_get s.
  - destruct vhost as [v |];
      [destruct (String.eqb v "") eqn:Ev |].
    + exists "queues". run_methods. cbn [truthy]. rewrite Ev. finish_get s.
    + exists ("queues/" ++ v). run_methods. cbn [truthy]. rewrite Ev.
      cbn [append]. finish_get s.
    + exists "queues". run_methods. finish_get s.
  - exists ("queues/" ++ vhost ++ "/" ++ name).
    run_methods. cbn [append]. finish_get s.
  - destruct vhost as [v |];
      [destruct (String.eqb v "") eqn:Ev |].
    + exists "exchanges". run_methods. cbn [truthy]. rewrite Ev. finish_get s.
    + exists ("exchanges/" ++ v). run_methods. cbn [truthy]. rewrite Ev.
      cbn [append]. finish_get s.
    + exists "exchanges". run_methods. finish_get s.
  - exists ("exchanges/" ++ vhost ++ "/" ++ name).
    run_methods. cbn [append]. finish_get s.
  - destruct name as [n |];
      [destruct (String.eqb n "") eqn:En |].
    + exists "connections". run_methods. cbn [truthy]. rewrite En. finish_get s.
    + exists "connections/%s". run_methods. cbn [truthy]. rewrite En. finish_get s.
    + exists "connections". run_methods. finish_get s.
  - exists "channels". run_methods. finish_get s.
Qed.

(** ** Error translation *)

(** C1. [do_call(path, reqtype)]: when the HTTP client's request raises,
    [do_call] raises NetworkError; when it answers with a status other
    than 200, [do_call] raises an HTTPError carrying that status, that
    reason and the requested path; when it answers 200, [do_call]
    returns the response and the content as they came.  Whatever
    [do_call] raises is a NetworkError or an HTTPError. *)
Theorem do_call_error_translation (p reqtype : string) (s : State) :
  let res := fst (do_call p reqtype s) in
  (forall exc, answer s (mkRequest p reqtype) = inl exc ->
     res = Raise (ExcNetworkError
                    ("Error: " ++ exc_type exc ++ " " ++ exc_str exc))) /\
  (forall resp content,
     answer s (mkRequest p reqtype) = inr (resp, content) ->
     resp_status resp <> 200 ->
     exists e, res = Raise (ExcHTTPError e) /\
               status e = resp_status resp /\
               reason e = resp_reason resp /\
               path e = p) /\
  (forall resp content,
     answer s (mkRequest p reqtype) = inr (resp, content) ->
     resp_status resp = 200 ->
     res = Return (resp, content)) /\
  (forall e, res = Raise e ->
     match e with
     | ExcNetworkError _ | ExcHTTPError _ => True
     | ExcAPIError _ | ExcForeign _ => False
     end).
Proof.
  intros res. subst res. rewrite do_call_run. cbn [fst].
  repeat split.
  - intros exc ->. reflexivity.
  - intros resp content -> Hst.
    apply Z.eqb_neq in Hst. rewrite Hst.
    eexists. split; [reflexivity|]. cbn. auto.
  - intros resp content -> Hst.
    apply Z.eqb_eq in Hst. now rewrite Hst.
  - intros e.
    destruct (answer s (mkRequest p reqtype)) as [exc | [resp content]].
    + intros [= <-]. exact I.
    + destruct (resp_status resp =? 200); [discriminate|].
      intros [= <-]. exact I.
Qed.

(** C2. [is_alive(vhost)]: when the aliveness-test request ends in an
    HTTPError of status 404, [is_alive] raises the APIError that names
    the vhost; an HTTPError of any other status goes on to the caller as
    it is. *)
Theorem is_alive_vhost_not_found (vhost : string) (s : State) (e : HTTPError) :
  let uri := path_join (base_url (self s)) ("aliveness-test/" ++ vhost) in
  fst (do_call uri "GET" s) = Raise (ExcHTTPError e) ->
  (status e = 404 ->
   fst (is_alive vhost s) =
   Raise (ExcAPIError ("No vhost named '" ++ vhost ++ "'"))) /\
  (status e <> 404 ->
   fst (is_alive vhost s) = Raise (ExcHTTPError e)).
Proof.
  intros uri Hcall. rewrite is_alive_run. fold uri.
  destruct (do_call uri "GET" s) as [res s']. cbn [fst] in Hcall.
  subst res. cbn [fst]. split; intros Hst.
  - apply Z.eqb_eq in Hst. now rewrite Hst.
  - apply Z.eqb_neq in Hst. now rewrite Hst.
Qed.

(** C3. [get_users()]: an answer of status 401 becomes the APIError
    saying that only an admin can access user data; any other status
    that is not 200 leaves [do_call]'s HTTPError as it is; on 200 the
    result is the JSON-decoded body. *)
Theorem get_users_access_denied (s : State) (resp : Response) (content : bytes) :
  let uri := path_join (base_url (self s)) "users" in
  answer s (mkRequest uri "GET") = inr (resp, content) ->
  (resp_status resp = 401 ->
   fst (get_users s) = Raise (ExcAPIError "Only admin can access user data")) /\
  (resp_status resp <> 401 -> resp_status resp <> 200 ->
   exists e, fst (do_call uri "GET" s) = Raise (ExcHTTPError e) /\
             fst (get_users s) = Raise (ExcHTTPError e) /\
             status e = resp_status resp /\
             reason e = resp_reason resp /\
             path e = uri) /\
  (resp_status resp = 200 ->
   fst (get_users s) = json_loads_utf8 content).
Proof.
  intros uri Hans. rewrite get_users_run. fold uri.
  rewrite do_call_run, Hans. cbn [fst].
  split; [| split].
  - intros Hst. rewrite Hst. reflexivity.
  - intros H401 H200.
    apply Z.eqb_neq in H200. rewrite H200. cbn [status].
    apply Z.eqb_neq in H401. rewrite H401.
    eexists. split; [reflexivity|]. cbn. auto.
  - intros Hst. rewrite Hst. reflexivity.
Qed.

(** C9. Whenever [is_alive] returns, it returns True. *)
Theorem is_alive_returns_true (vhost : string) (s s' : State) (b : bool) :
  is_alive vhost s = (Return b, s') -> b = true.
Proof.
  rewrite is_alive_run, do_call_run.
  destruct (answer s _) as [exc | [resp content]].
  - discriminate.
  - destruct (resp_status resp =? 200) eqn:Hst.
    + rewrite Hst. now intros [= <- _].
    + cbn [status]. destruct (_ =? 404); discriminate.
Qed.

(** C10. [purge_queue(vhost, name)] returns True exactly when the answer
    has status 200 or 204; every other status goes to the caller as
    [do_call]'s HTTPError, and a transport failure as NetworkError. *)
Theorem purge_queue_outcome (vhost name : string) (s : State) :
  let uri := path_join (base_url (self s))
               ("queues/" ++ vhost ++ "/" ++ name ++ "/contents") in
  let res := fst (purge_queue vhost name s) in
  (res = Return true <->
   exists resp content,
     answer s (mkRequest uri "DELETE") = inr (resp, content) /\
     (resp_status resp = 200 \/ resp_status resp = 204)) /\
  (forall resp content,
     answer s (mkRequest uri "DELETE") = inr (resp, content) ->
     resp_status resp <> 200 -> resp_status resp <> 204 ->
     res = Raise (ExcHTTPError
                    (mkHTTPError (resp_status resp) (resp_reason resp) uri
                       (str_of_int (resp_status resp) ++ " - " ++
                        resp_reason resp ++ " (" ++ uri ++ ")")))) /\
  (forall exc,
     answer s (mkRequest uri "DELETE") = inl exc ->
     res = Raise (ExcNetworkError
                    ("Error: " ++ exc_type exc ++ " " ++ exc_str exc))) /\
  (forall b, res = Return b -> b = true).
Proof.
  intros uri res. subst res. rewrite purge_queue_run. fold uri.
  rewrite do_call_run.
  destruct (answer s (mkRequest uri "DELETE")) as [exc | [resp content]].
  - cbn [fst]. repeat split; try discriminate.
    + intros (resp & content & Habs & _). discriminate Habs.
    + intros exc' [= <-]. reflexivity.
  - destruct (resp_status resp =? 200) eqn:H200.
    + apply Z.eqb_eq in H200. cbn [fst]. repeat split; try discriminate.
      * intros _. exists resp, content. auto.
      * intros resp' content' [= <- <-] Hne. contradiction.
      * now intros b [= <-].
    + cbn [status fst]. apply Z.eqb_neq in H200.
      destruct (resp_status resp =? 204) eqn:H204.
      * apply Z.eqb_eq in H204. repeat split; try discriminate.
        -- intros _. exists resp, content. auto.
        -- intros resp' content' [= <- <-] _ Hne. contradiction.
        -- now intros b [= <-].
      * apply Z.eqb_neq in H204. repeat split; try discriminate.
        -- intros (resp' & content' & [= <- <-] & [Hs | Hs]); contradiction.
        -- now intros resp' content' [= <- <-] _ _.
Qed.

(** ** One round trip, no state kept *)

Lemma skipn_length_app {A : Type} (l l' : list A) :
  skipn (length l) (l ++ l') = l'.
Proof. induction l as [|x l IH]; [reflexivity | exact IH]. Qed.

Lemma sent_by_after_request {A : Type} (m : Py A) (s : State) (r : Request) :
  snd (m s) = after_request s r -> sent_by m s = [r].
Proof.
  unfold sent_by. intros ->. cbn [after_request wire].
  apply skipn_length_app.
Qed.

Lemma sent_by_unchanged {A : Type} (m : Py A) (s : State) :
  snd (m s) = s -> sent_by m s = [].
Proof.
  unfold sent_by. intros ->.
  rewrite <- (app_nil_r (wire s)) at 2. apply skipn_length_app.
Qed.

(** Each GET method sends one GET below the base URL, and on an answer
    of status 200 hands back the decoded body. *)
Lemma get_operation_request (op : Op) (s : State) :
  is_get_operation op = true ->
  exists p : string,
    let r := mkRequest (path_join (base_url (self s)) p) "GET" in
    snd (call op s) = after_request s r /\
    (forall resp content,
       answer s r = inr (resp, content) -> resp_status resp = 200 ->
       fst (call op s) =
       match json_loads_utf8 content with
       | Return j => Return (VJson j)
       | Raise e => Raise e
       end) /\
    (forall exc,
       answer s r = inl exc ->
       fst (call op s) =
       Raise (ExcNetworkError
                ("Error: " ++ exc_type exc ++ " " ++ exc_str exc))).
Proof.
  intros Hop. destruct (get_operation_run op s Hop) as [p Hrun].
  exists p. cbn zeta. rewrite Hrun, do_call_run.
  destruct (answer s _) as [exc | [resp content]].
  - repeat split; try discriminate.
    intros exc' [= <-]. now destruct op.
  - destruct (resp_status resp =? 200) eqn:Hst.
    + repeat split; try discriminate.
      now intros resp' content' [= <- <-] _.
    + repeat split; try discriminate.
      intros resp' content' [= <- <-] H200.
      apply Z.eqb_neq in Hst. contradiction.
Qed.

(** Every method but [decode_json_content] ends in the state that one
    request leaves; [decode_json_content] leaves the state alone and
    raises nothing of this module's own. *)
Lemma call_final_state (op : Op) (s : State) :
  match op with
  | Call_decode_json_content content =>
      call op s =
      (match json_loads_utf8 content with
       | Return j => Return (VJson j)
       | Raise e => Raise e
       end, s)
  | _ => exists r, snd (call op s) = after_request s r
  end.
Proof.
  destruct op as [ content | p reqtype | vhost | | | | | vhost | vhost name
                 | vhost name | vhost | vhost name | name | ];
    try (match goal with
         | |- exists r, snd (call ?op s) = _ =>
             destruct (get_operation_request op s eq_refl)
               as (p & Hsnd & _);
             eexists; exact Hsnd
         end).
  - cbn [call]. unfold fmap, bind, ret.
    rewrite decode_json_content_run.
    now destruct (json_loads_utf8 content).
  - exists (mkRequest p reqtype). cbn [call]. unfold fmap, bind, ret.
    rewrite do_call_run.
    now destruct (answer s _) as [exc | [resp content]];
      [| destruct (resp_status resp =? 200)].
  - eexists. cbn [call]. unfold fmap, bind, ret.
    rewrite is_alive_run, do_call_run.
    destruct (answer s _) as [exc | [resp content]]; [reflexivity|].
    destruct (resp_status resp =? 200); [reflexivity|].
    cbn [status]. now destruct (resp_status resp =? 404).
  - eexists. cbn [call]. unfold fmap, bind, ret.
    rewrite purge_queue_run, do_call_run.
    destruct (answer s _) as [exc | [resp content]]; [reflexivity|].
    destruct (resp_status resp =? 200); [reflexivity|].
    cbn [status]. now destruct (resp_status resp =? 204).
Qed.

(** C6. Each GET method, when its request is answered with status 200,
    returns [json.loads] of the UTF-8 decoding of the body: the same
    generic decoding for every endpoint. *)
Theorem get_operations_decode_json
    (op : Op) (s : State) (r : Request) (resp : Response) (content : bytes) :
  is_get_operation op = true ->
  sent_by (call op) s = [r] ->
  answer s r = inr (resp, content) ->
  resp_status resp = 200 ->
  fst (call op s) =
  match json_loads_utf8 content with
  | Return j => Return (VJson j)
  | Raise e => Raise e
  end.
Proof.
  intros Hop Hsent Hans Hst.
  destruct (get_operation_request op s Hop) as (p & Hsnd & Hok & _).
  rewrite (sent_by_after_request _ _ _ Hsnd) in Hsent.
  injection Hsent as <-. exact (Hok resp content Hans Hst).
Qed.

(** C7. A call of a public method puts at most one request on the wire,
    after those already there; when it raises NetworkError or HTTPError,
    that is after exactly one request. *)
Theorem one_request_per_call (op : Op) (s : State) :
  wire (snd (call op s)) = (wire s ++ sent_by (call op) s)%list /\
  (length (sent_by (call op) s) <= 1)%nat /\
  (forall e, fst (call op s) = Raise e ->
     match e with
     | ExcNetworkError _ | ExcHTTPError _ =>
         length (sent_by (call op) s) = 1%nat
     | ExcAPIError _ | ExcForeign _ => True
     end).
Proof.
  pose proof (call_final_state op s) as Hfin.
  assert (Hcases :
    (exists r, snd (call op s) = after_request s r) \/
    (exists content,
       call op s =
       (match json_loads_utf8 content with
        | Return j => Return (VJson j)
        | Raise e => Raise e
        end, s))).
  { destruct op; try (left; exact Hfin). right. eexists. exact Hfin. }
  clear Hfin. destruct Hcases as [[r Hsnd] | [content Hrun]].
  - rewrite (sent_by_after_request _ _ _ Hsnd), Hsnd.
    repeat split; [cbn; lia|].
    intros e _. now destruct e.
  - assert (Hsnd : snd (call op s) = s) by now rewrite Hrun.
    rewrite (sent_by_unchanged _ _ Hsnd), Hsnd, app_nil_r.
    repeat split; [cbn; lia|].
    intros e. rewrite Hrun. cbn [fst].
    unfold json_loads_utf8.
    destruct (utf8_decode content) as [x | str_ct].
    + now intros [= <-].
    + destruct (json_loads str_ct); [now intros [= <-] | discriminate].
Qed.

(** C8. A call of a public method, returning or raising, leaves the
    instance as it was: the same [base_url], the same [client], and
    nothing else, since the instance has no other attribute. *)
Theorem operations_leave_instance_unchanged (op : Op) (s : State) :
  base_url (self (snd (call op s))) = base_url (self s) /\
  client (self (snd (call op s))) = client (self s) /\
  self (snd (call op s)) = self s.
Proof.
  assert (H : self (snd (call op s)) = self s).
  { pose proof (call_final_state op s) as Hfin.
    destruct op; [now rewrite Hfin | ..];
      destruct Hfin as [r ->]; reflexivity. }
  now rewrite H.
Qed.

(** ** Request paths *)

Ltac settle_state s :=
  rewrite do_call_run;
  destruct (answer s _) as [exc | [resp content]];
  [ | destruct (resp_status resp =? 200) ];
  cbn -[decode_json_content];
  rewrite ?decode_json_content_run;
  repeat match goal with
  | |- context [json_loads_utf8 ?c] => destruct (json_loads_utf8 c)
  | |- context [if ?b then _ else _] => destruct b
  end;
  reflexivity.

(** Apart from [get_connections] with a name, each method that builds a
    path sends one request, and its URL is the base URL joined with the
    method's [urls] entry, arguments substituted. *)
Lemma call_requests_template
    (op : Op) (s : State) (key tmpl p : string) (args : list string) :
  names_a_connection op = false ->
  template_of op = Some (key, args) ->
  dict_get urls key = Return tmpl ->
  pyformat tmpl args = Return p ->
  snd (call op s) =
  after_request s
    (mkRequest (path_join (base_url (self s)) p)
               (match op with
                | Call_purge_queue _ _ => "DELETE"
                | _ => "GET"
                end)).
Proof.
  intros Hname Htmpl Hkey Hfmt.
  destruct op as [ content | path reqtype | vhost | | | | | [v |] | vhost name
                 | vhost name | [v |] | vhost name | [n |] | ];
    try discriminate Htmpl;
    try (destruct (String.eqb v "") eqn:Ev);
    try (destruct (String.eqb n "") eqn:En);
    cbn [template_of truthy] in Htmpl; rewrite ?Ev, ?En in Htmpl;
    cbn [names_a_connection truthy] in Hname; rewrite ?En in Hname;
    try discriminate Hname;
    injection Htmpl as <- <-;
    injection Hkey as <-;
    cbn [pyformat Ascii.eqb Bool.eqb] in Hfmt;
    rewrite ?append_empty_r in Hfmt;
    injection Hfmt as <-;
    cbn [call]; unfold fmap.
  all: run_methods; cbn [truthy]; rewrite ?Ev, ?En;
    cbn [negb dict_get urls pyformat String.eqb Ascii.eqb Bool.eqb];
    rewrite ?append_empty_r;
    settle_state s.
Qed.

(** C5. What [get_connections(name)] asks for when a name is given:
    for every name that is not empty the path is the table entry
    [connections/%s] as it stands, the name not put in; for the empty
    name it is [connections]. *)
Theorem get_connections_requests_raw_template (name : string) (s : State) :
  sent_by (get_connections (Some name)) s =
  [mkRequest (path_join (base_url (self s))
                (if String.eqb name "" then "connections"
                 else "connections/%s"))
             "GET"].
Proof.
  apply sent_by_after_request.
  run_methods. cbn [truthy].
  destruct (String.eqb name "");
    cbn [negb dict_get urls pyformat String.eqb Ascii.eqb Bool.eqb];
    settle_state s.
Qed.

Lemma get_connections_all (s : State) :
  sent_by (get_connections None) s =
  [mkRequest (path_join (base_url (self s)) "connections") "GET"].
Proof.
  apply sent_by_after_request.
  run_methods. cbn [truthy]. settle_state s.
Qed.

(** Apart from [get_connections] with a name, a method called on a
    client made by [__init__] for [server] requests the URL the
    specification gives. *)
Theorem request_uri_follows_template
    (server uname passwd : string) (c : HTTPClient)
    (op : Op) (s : State) (uri : string) :
  HTTPClient_init server uname passwd = Return c ->
  self s = c ->
  names_a_connection op = false ->
  spec_request_uri server op = Some uri ->
  sent_by (call op) s =
  [mkRequest uri (match op with
                  | Call_purge_queue _ _ => "DELETE"
                  | _ => "GET"
                  end)].
Proof.
  rewrite HTTPClient_init_run. intros [= <-] Hself Hname Hspec.
  unfold spec_request_uri in Hspec.
  destruct (template_of op) as [[key args] |] eqn:Htmpl; [|discriminate].
  destruct (dict_get urls key) as [tmpl |] eqn:Hkey; [|discriminate].
  destruct (pyformat tmpl args) as [p |] eqn:Hfmt; [|discriminate].
  injection Hspec as <-.
  apply sent_by_after_request.
  rewrite (call_requests_template op s key tmpl p args Hname Htmpl Hkey Hfmt).
  rewrite Hself. cbn [base_url].
  do 2 f_equal.
  exact (path_join_base server p (urls_entries_relative _ _ _ _ Hkey Hfmt)).
Qed.

(** ** What all the methods share *)

Lemma prefix_append (a b : string) : String.prefix a (a ++ b) = true.
Proof.
  induction a as [|c a IH]; cbn; [now destruct b|].
  destruct (ascii_dec c c) as [_ | Hne]; [exact IH | now elim Hne].
Qed.

(** A relative path joined to a base stays below the base. *)
Lemma path_join_keeps_base (a b : string) :
  startswith "/" b = false -> startswith a (path_join a b) = true.
Proof.
  intros Hb. unfold path_join. rewrite Hb. unfold startswith.
  destruct (String.eqb a "" || endswith "/" a); apply prefix_append.
Qed.

(** The request of [get_connections] with a name, whatever the name. *)
Lemma get_connections_named_state (n : string) (s : State) :
  String.eqb n "" = false ->
  snd (call (Call_get_connections (Some n)) s) =
  after_request s
    (mkRequest (path_join (base_url (self s)) "connections/%s") "GET").
Proof.
  intros En. cbn [call]. run_methods. cbn [truthy]. rewrite En.
  cbn [negb dict_get urls pyformat String.eqb Ascii.eqb Bool.eqb].
  settle_state s.
Qed.

(** Each method that builds a path asks for one relative path, fixed by
    its arguments alone, joined to the instance's base URL. *)
Lemma call_request_path (op : Op) :
  match op with
  | Call_decode_json_content _ | Call_do_call _ _ => True
  | _ =>
      exists p : string,
        startswith "/" p = false /\
        forall s : State,
          snd (call op s) =
          after_request s
            (mkRequest (path_join (base_url (self s)) p)
                       (match op with
                        | Call_purge_queue _ _ => "DELETE"
                        | _ => "GET"
                        end))
  end.
Proof.
  destruct op as [ content | path reqtype | vhost | | | | | [v |] | vhost name
                 | vhost name | [v |] | vhost name | [n |] | ];
    try exact I;
    try (destruct (String.eqb v "") eqn:Ev);
    try (destruct (String.eqb n "") eqn:En).
  all: try (eexists; split;
            [ | intros s; eapply call_requests_template;
                [ cbn [names_a_connection truthy]; rewrite ?En; reflexivity
                | cbn [template_of truthy]; rewrite ?Ev, ?En; reflexivity
                | reflexivity
                | reflexivity ] ];
            reflexivity).
  exists "connections/%s". split; [reflexivity|].
  intros s. now apply get_connections_named_state.
Qed.

(** The whole outcome of a call that goes to the network, read off the
    one answer the transport gives. *)
Lemma call_outcome (op : Op) (s : State) :
  match op with
  | Call_decode_json_content _ => True
  | _ =>
      exists r : Request,
        snd (call op s) = after_request s r /\
        fst (call op s) =
        match answer s r with
        | inl exc =>
            Raise (ExcNetworkError
                     ("Error: " ++ exc_type exc ++ " " ++ exc_str exc))
        | inr (resp, content) =>
            let http_error :=
              ExcHTTPError
                (mkHTTPError (resp_status resp) (resp_reason resp) (req_uri r)
                   (str_of_int (resp_status resp) ++ " - " ++
                    resp_reason resp ++ " (" ++ req_uri r ++ ")")) in
            if resp_status resp =? 200 then
              match op with
              | Call_do_call _ _ => Return (VResponse resp content)
              | Call_is_alive _ | Call_purge_queue _ _ => Return (VBool true)
              | _ =>
                  match json_loads_utf8 content with
                  | Return j => Return (VJson j)
                  | Raise e => Raise e
                  end
              end
            else
              match op with
              | Call_is_alive vhost =>
                  if resp_status resp =? 404
                  then Raise (ExcAPIError ("No vhost named '" ++ vhost ++ "'"))
                  else Raise http_error
              | Call_get_users =>
                  if resp_status resp =? 401
                  then Raise (ExcAPIError "Only admin can access user data")
                  else Raise http_error
              | Call_purge_queue _ _ =>
                  if resp_status resp =? 204
                  then Return (VBool true)
                  else Raise http_error
              | _ => Raise http_error
              end
        end
  end.
Proof.
  destruct op as [ content | path reqtype | vhost | | | | | vhost | vhost name
                 | vhost name | vhost | vhost name | name | ];
    try exact I;
    try (match goal with
         | |- exists r, snd (call ?op s) = _ /\ _ =>
             destruct (get_operation_run op s eq_refl) as [p Hrun];
             exists (mkRequest (path_join (base_url (self s)) p) "GET");
             rewrite Hrun, do_call_run;
             destruct (answer s _) as [exc | [resp content]];
             [ split; reflexivity | ];
             destruct (resp_status resp =? 200); [split; reflexivity|];
             cbn [fst snd status req_uri];
             try destruct (resp_status resp =? 401);
             split; reflexivity
         end).
  - exists (mkRequest path reqtype). cbn [call]. unfold fmap, bind, ret.
    rewrite do_call_run.
    destruct (answer s _) as [exc | [resp content]]; [split; reflexivity|].
    destruct (resp_status resp =? 200); split; reflexivity.
  - exists (mkRequest (path_join (base_url (self s))
                          ("aliveness-test/" ++ vhost)) "GET").
    cbn [call]. unfold fmap, bind, ret.
    rewrite is_alive_run, do_call_run.
    destruct (answer s _) as [exc | [resp content]]; [split; reflexivity|].
    destruct (resp_status resp =? 200) eqn:E200.
    + rewrite E200. split; reflexivity.
    + cbn [status req_uri]. destruct (resp_status resp =? 404);
        split; reflexivity.
  - exists (mkRequest (path_join (base_url (self s))
                          ("queues/" ++ vhost ++ "/" ++ name ++ "/contents"))
                       "DELETE").
    cbn [call]. unfold fmap, bind, ret.
    rewrite purge_queue_run, do_call_run.
    destruct (answer s _) as [exc | [resp content]]; [split; reflexivity|].
    destruct (resp_status resp =? 200); [split; reflexivity|].
    cbn [status req_uri]. destruct (resp_status resp =? 204);
      split; reflexivity.
Qed.

(** What a call sent is the request its final state records. *)
Lemma sent_by_inv {A : Type} (m : Py A) (s : State) (r r' : Request) :
  snd (m s) = after_request s r -> sent_by m s = [r'] -> r' = r.
Proof.
  intros Hsnd Hsent. rewrite (sent_by_after_request _ _ _ Hsnd) in Hsent.
  now injection Hsent.
Qed.

Lemma call_keeps_self (op : Op) (s : State) : self (snd (call op s)) = self s.
Proof.
  pose proof (call_final_state op s) as Hfin.
  destruct op; [now rewrite Hfin | ..];
    destruct Hfin as [r ->]; reflexivity.
Qed.

Lemma decode_sends_nothing (content : bytes) (s : State) :
  sent_by (call (Call_decode_json_content content)) s = [].
Proof.
  apply sent_by_unchanged.
  now rewrite (call_final_state (Call_decode_json_content content) s).
Qed.

Lemma request_of_do_call (p reqtype : string) (s : State) :
  snd (call (Call_do_call p reqtype) s) = after_request s (mkRequest p reqtype) /\
  sent_by (call (Call_do_call p reqtype)) s = [mkRequest p reqtype].
Proof.
  assert (H : snd (call (Call_do_call p reqtype) s) =
              after_request s (mkRequest p reqtype)).
  { cbn [call]. unfold fmap, bind, ret. rewrite do_call_run.
    now destruct (answer s _) as [exc | [resp content]];
      [| destruct (resp_status resp =? 200)]. }
  split; [exact H | now apply sent_by_after_request].
Qed.

(** For a call that sent [r]: the facts of [call_outcome] about [r]. *)
Ltac outcome_of op s Hsent r :=
  let Hout := fresh "Hout" in
  let Hsnd := fresh "Hsnd" in
  let Hfst := fresh "Hfst" in
  let r0 := fresh "r0" in
  pose proof (call_outcome op s) as Hout;
  destruct op;
  [ rewrite decode_sends_nothing in Hsent; discriminate Hsent | .. ];
  destruct Hout as (r0 & Hsnd & Hfst);
  pose proof (sent_by_inv _ _ _ _ Hsnd Hsent); subst r;
  rewrite Hfst; clear Hfst.

(** X1. What a call puts on the wire is fixed by the method, its
    arguments and the instance: [decode_json_content] sends nothing, and
    every other method sends exactly one request, the same one from
    every state of the network and whatever was sent before. *)
Theorem request_fixed_by_instance (op : Op) (c : HTTPClient) :
  match op with
  | Call_decode_json_content _ =>
      forall s : State, sent_by (call op) s = []
  | _ =>
      exists r : Request,
        forall s : State, self s = c -> sent_by (call op) s = [r]
  end.
Proof.
  pose proof (call_request_path op) as Hpath.
  destruct op as [ content | p reqtype | | | | | | | | | | | | ];
    try (destruct Hpath as (p & _ & Hsnd);
         eexists (mkRequest (path_join (base_url c) p) _);
         intros s <-; apply sent_by_after_request; apply Hsnd).
  - intros s. apply decode_sends_nothing.
  - exists (mkRequest p reqtype). intros s _.
    apply sent_by_after_request. cbn [call]. unfold fmap, bind, ret.
    rewrite do_call_run.
    now destruct (answer s _) as [exc | [resp content]];
      [| destruct (resp_status resp =? 200)].
Qed.

(** X2. Every method that builds its own path requests a URL that
    begins with the instance's [base_url], whatever the base URL and the
    arguments are: no argument makes [os.path.join] drop the base. *)
Theorem requests_stay_under_base_url (op : Op) (s : State) :
  match op with
  | Call_decode_json_content _ | Call_do_call _ _ => True
  | _ =>
      exists r : Request,
        sent_by (call op) s = [r] /\
        startswith (base_url (self s)) (req_uri r) = true
  end.
Proof.
  pose proof (call_request_path op) as Hpath.
  destruct op; try exact I;
    destruct Hpath as (p & Hrel & Hsnd);
    eexists; (split; [apply sent_by_after_request; apply Hsnd|]);
    cbn [req_uri]; now apply path_join_keeps_base.
Qed.

(** X3. The HTTP method of the request a call sends: [do_call] passes on
    the one it is given, [purge_queue] sends DELETE, and every other
    method sends GET. *)
Theorem only_purge_queue_deletes (op : Op) (s : State) (r : Request) :
  sent_by (call op) s = [r] ->
  req_method r =
  match op with
  | Call_do_call _ reqtype => reqtype
  | Call_purge_queue _ _ => "DELETE"
  | _ => "GET"
  end.
Proof.
  intros Hsent.
  pose proof (call_request_path op) as Hpath.
  destruct op as [ content | p reqtype | | | | | | | | | | | | ];
    try (destruct Hpath as (p & _ & Hsnd);
         now rewrite (sent_by_inv _ _ _ _ (Hsnd s) Hsent)).
  - rewrite decode_sends_nothing in Hsent. discriminate Hsent.
  - destruct (request_of_do_call p reqtype s) as [Hsnd _].
    now rewrite (sent_by_inv _ _ _ _ Hsnd Hsent).
Qed.

(** X4. When the transport raises on the request a call sent, the call
    raises NetworkError with the text made of the type and the message
    of what was raised: no method's [except] clause takes it. *)
Theorem transport_failure_reaches_caller
    (op : Op) (s : State) (r : Request) (exc : ForeignExc) :
  sent_by (call op) s = [r] ->
  answer s r = inl exc ->
  fst (call op s) =
  Raise (ExcNetworkError ("Error: " ++ exc_type exc ++ " " ++ exc_str exc)).
Proof.
  intros Hsent Hans. outcome_of op s Hsent r.
  all: now rewrite Hans.
Qed.

(** X5. A status that is neither 200 nor the one the method singles out
    (404 for [is_alive], 401 for [get_users], 204 for [purge_queue])
    comes out as an HTTPError holding that status, the reason and the
    URL that was requested. *)
Theorem unhandled_status_raises_HTTPError
    (op : Op) (s : State) (r : Request) (resp : Response) (content : bytes) :
  sent_by (call op) s = [r] ->
  answer s r = inr (resp, content) ->
  resp_status resp <> 200 ->
  resp_status resp <>
    match op with
    | Call_is_alive _ => 404
    | Call_get_users => 401
    | Call_purge_queue _ _ => 204
    | _ => 200
    end ->
  fst (call op s) =
  Raise (ExcHTTPError
           (mkHTTPError (resp_status resp) (resp_reason resp) (req_uri r)
              (str_of_int (resp_status resp) ++ " - " ++
               resp_reason resp ++ " (" ++ req_uri r ++ ")"))).
Proof.
  intros Hsent Hans H200 Hop. outcome_of op s Hsent r.
  all: rewrite Hans; cbn zeta;
    apply Z.eqb_neq in H200; rewrite H200;
    try (apply Z.eqb_neq in Hop; rewrite Hop);
    reflexivity.
Qed.

(** X6. An APIError comes from two places only: [is_alive] on a 404,
    with the vhost in its message, and [get_users] on a 401. *)
Theorem APIError_only_from_is_alive_and_get_users
    (op : Op) (s : State) (msg : string) :
  fst (call op s) = Raise (ExcAPIError msg) ->
  exists (r : Request) (resp : Response) (content : bytes),
    sent_by (call op) s = [r] /\
    answer s r = inr (resp, content) /\
    ((exists vhost, op = Call_is_alive vhost /\
                    resp_status resp = 404 /\
                    msg = "No vhost named '" ++ vhost ++ "'") \/
     (op = Call_get_users /\
      resp_status resp = 401 /\
      msg = "Only admin can access user data")).
Proof.
  intros Hres.
  pose proof (call_outcome op s) as Hout.
  pose proof (call_final_state op s) as Hfin.
  destruct op as [ content | p reqtype | vhost | | | | | vhost | vhost name
                 | vhost name | vhost | vhost name | name | ].
  1: { rewrite Hfin in Hres. cbn [fst] in Hres. unfold json_loads_utf8 in Hres.
       destruct (utf8_decode content) as [e | str_ct]; [discriminate|].
       destruct (json_loads str_ct); discriminate. }
  all: destruct Hout as (r & Hsnd & Hfst); rewrite Hfst in Hres;
    exists r;
    destruct (answer s r) as [exc | [resp content]] eqn:Hans;
    [discriminate|];
    exists resp, content;
    (split; [now apply sent_by_after_request|]);
    (split; [reflexivity|]);
    cbn zeta in Hres;
    destruct (resp_status resp =? 200);
    try discriminate;
    try (unfold json_loads_utf8 in Hres;
         destruct (utf8_decode content) as [x | str_ct]; [discriminate|];
         destruct (json_loads str_ct); discriminate).
  - destruct (resp_status resp =? 404) eqn:E; [|discriminate].
    apply Z.eqb_eq in E. injection Hres as <-. left. now exists vhost.
  - destruct (resp_status resp =? 401) eqn:E; [|discriminate].
    apply Z.eqb_eq in E. injection Hres as <-. now right.
  - destruct (resp_status resp =? 204); discriminate.
Qed.

(** X7. [is_alive(vhost)] returns True exactly when the aliveness-test
    request is answered with status 200; the body of the answer plays
    no part. *)
Theorem is_alive_true_iff_status_200 (vhost : string) (s : State) :
  let uri := path_join (base_url (self s)) ("aliveness-test/" ++ vhost) in
  fst (is_alive vhost s) = Return true <->
  exists resp content,
    answer s (mkRequest uri "GET") = inr (resp, content) /\
    resp_status resp = 200.
Proof.
  intros uri. rewrite is_alive_run. fold uri. rewrite do_call_run.
  destruct (answer s (mkRequest uri "GET")) as [exc | [resp content]].
  - split; [discriminate|]. intros (resp & content & Habs & _).
    discriminate Habs.
  - destruct (resp_status resp =? 200) eqn:E200.
    + rewrite E200. apply Z.eqb_eq in E200. split; [|reflexivity].
      intros _. now exists resp, content.
    + cbn [status fst]. apply Z.eqb_neq in E200. split.
      * destruct (resp_status resp =? 404); discriminate.
      * intros (resp' & content' & [= <- <-] & H200). contradiction.
Qed.

Lemma sent_by_fmap {A B : Type} (f : A -> B) (m : Py A) (s : State) :
  sent_by (fmap f m) s = sent_by m s.
Proof.
  unfold sent_by, fmap, bind, ret.
  now destruct (m s) as [[a | e] s'].
Qed.

(** X8. The path [get_queues(vhost)] asks for: [queues/<vhost>] for a
    vhost that is not empty, and [queues], the list over all vhosts,
    both for None and for the empty string. *)
Theorem get_queues_path_selection (vhost : option string) (s : State) :
  sent_by (get_queues vhost) s =
  [mkRequest (path_join (base_url (self s))
                (match vhost with
                 | Some v => if String.eqb v "" then "queues"
                             else "queues/" ++ v
                 | None => "queues"
                 end))
             "GET"].
Proof.
  apply sent_by_after_request.
  destruct vhost as [v |]; run_methods; cbn [truthy];
    [destruct (String.eqb v "") |];
    cbn [negb dict_get urls pyformat String.eqb Ascii.eqb Bool.eqb append];
    rewrite ?append_empty_r;
    settle_state s.
Qed.

(** X9. The path [get_exchanges(vhost)] asks for: [exchanges/<vhost>]
    for a vhost that is not empty, and [exchanges] both for None and for
    the empty string. *)
Theorem get_exchanges_path_selection (vhost : option string) (s : State) :
  sent_by (get_exchanges vhost) s =
  [mkRequest (path_join (base_url (self s))
                (match vhost with
                 | Some v => if String.eqb v "" then "exchanges"
                             else "exchanges/" ++ v
                 | None => "exchanges"
                 end))
             "GET"].
Proof.
  apply sent_by_after_request.
  destruct vhost as [v |]; run_methods; cbn [truthy];
    [destruct (String.eqb v "") |];
    cbn [negb dict_get urls pyformat String.eqb Ascii.eqb Bool.eqb append];
    rewrite ?append_empty_r;
    settle_state s.
Qed.

(** The URL of a method with a template, on a client made by
    [__init__]. *)
Lemma templated_request
    (server uname passwd : string) (op : Op) (s : State)
    (key tmpl p : string) (args : list string) :
  Return (self s) = HTTPClient_init server uname passwd ->
  names_a_connection op = false ->
  template_of op = Some (key, args) ->
  dict_get urls key = Return tmpl ->
  pyformat tmpl args = Return p ->
  sent_by (call op) s =
  [mkRequest ("http://" ++ server ++ "/api/" ++ p)
             (match op with
              | Call_purge_queue _ _ => "DELETE"
              | _ => "GET"
              end)].
Proof.
  rewrite HTTPClient_init_run. intros [= Hself] Hname Htmpl Hkey Hfmt.
  apply sent_by_after_request.
  rewrite (call_requests_template op s key tmpl p args Hname Htmpl Hkey Hfmt).
  rewrite Hself. cbn [base_url].
  do 2 f_equal.
  exact (path_join_base server p (urls_entries_relative _ _ _ _ Hkey Hfmt)).
Qed.

(** X10. On a client made by [__init__] for [server], the methods that
    name a vhost, a queue or an exchange put their arguments into the
    URL as they are given, with no quoting: [is_alive] asks for
    [http://<server>/api/aliveness-test/<vhost>], [get_queue] for
    [.../queues/<vhost>/<name>], [get_exchange] for
    [.../exchanges/<vhost>/<name>], and [purge_queue] sends a DELETE for
    [.../queues/<vhost>/<name>/contents]. *)
Theorem arguments_go_into_url_as_given
    (server uname passwd vhost name : string) (s : State) :
  Return (self s) = HTTPClient_init server uname passwd ->
  sent_by (is_alive vhost) s =
  [mkRequest ("http://" ++ server ++ "/api/aliveness-test/" ++ vhost) "GET"] /\
  sent_by (get_queue vhost name) s =
  [mkRequest ("http://" ++ server ++ "/api/queues/" ++ vhost ++ "/" ++ name)
             "GET"] /\
  sent_by (get_exchange vhost name) s =
  [mkRequest ("http://" ++ server ++ "/api/exchanges/" ++ vhost ++ "/" ++ name)
             "GET"] /\
  sent_by (purge_queue vhost name) s =
  [mkRequest ("http://" ++ server ++ "/api/queues/" ++ vhost ++ "/" ++ name
              ++ "/contents") "DELETE"].
Proof.
  intros Hinit.
  repeat split.
  - rewrite <- (sent_by_fmap VBool).
    apply (templated_request server uname passwd (Call_is_alive vhost) s
             "live_test" "aliveness-test/%s" ("aliveness-test/" ++ vhost)
             [vhost] Hinit); try reflexivity.
    cbn. now rewrite append_empty_r.
  - rewrite <- (sent_by_fmap VJson).
    apply (templated_request server uname passwd (Call_get_queue vhost name) s
             "queues_by_name" "queues/%s/%s"
             ("queues/" ++ vhost ++ "/" ++ name)
             [vhost; name] Hinit); try reflexivity.
    cbn. now rewrite append_empty_r.
  - rewrite <- (sent_by_fmap VJson).
    apply (templated_request server uname passwd
             (Call_get_exchange vhost name) s
             "exchange_by_name" "exchanges/%s/%s"
             ("exchanges/" ++ vhost ++ "/" ++ name)
             [vhost; name] Hinit); try reflexivity.
    cbn. now rewrite append_empty_r.
  - rewrite <- (sent_by_fmap VBool).
    apply (templated_request server uname passwd
             (Call_purge_queue vhost name) s
             "purge_queue" "queues/%s/%s/contents"
             ("queues/" ++ vhost ++ "/" ++ name ++ "/contents")
             [vhost; name] Hinit); reflexivity.
Qed.

(** X11. An HTTPError that reaches the caller of any method describes
    the answer to the request that was sent: its status is the
    answer's and is not 200, its reason is the answer's, its path is
    the URL requested, and its text is [<status> - <reason> (<path>)]. *)
Theorem raised_HTTPError_describes_answer
    (op : Op) (s : State) (e : HTTPError) :
  fst (call op s) = Raise (ExcHTTPError e) ->
  exists (r : Request) (resp : Response) (content : bytes),
    sent_by (call op) s = [r] /\
    answer s r = inr (resp, content) /\
    status e = resp_status resp /\
    status e <> 200 /\
    reason e = resp_reason resp /\
    path e = req_uri r /\
    output e =
    str_of_int (status e) ++ " - " ++ reason e ++ " (" ++ path e ++ ")".
Proof.
  intros Hres.
  pose proof (call_outcome op s) as Hout.
  pose proof (call_final_state op s) as Hfin.
  destruct op as [ content | p reqtype | vhost | | | | | vhost | vhost name
                 | vhost name | vhost | vhost name | name | ].
  1: { rewrite Hfin in Hres. cbn [fst] in Hres. unfold json_loads_utf8 in Hres.
       destruct (utf8_decode content) as [x | str_ct]; [discriminate|].
       destruct (json_loads str_ct); discriminate. }
  all: destruct Hout as (r & Hsnd & Hfst); rewrite Hfst in Hres;
    exists r;
    destruct (answer s r) as [exc | [resp content]] eqn:Hans;
    [discriminate|];
    exists resp, content;
    (split; [now apply sent_by_after_request|]);
    (split; [reflexivity|]);
    cbn zeta in Hres;
    destruct (resp_status resp =? 200) eqn:E200;
    try discriminate;
    try (unfold json_loads_utf8 in Hres;
         destruct (utf8_decode content) as [x | str_ct]; [discriminate|];
         destruct (json_loads str_ct); discriminate);
    apply Z.eqb_neq in E200;
    try (destruct (resp_status resp =? 404); [discriminate|]);
    try (destruct (resp_status resp =? 401); [discriminate|]);
    try (destruct (resp_status resp =? 204); [discriminate|]);
    injection Hres as <-; cbn; auto.
Qed.

(** X12. An exception of another module that comes out of a method is
    one the codec or [json.loads] raised, on the argument of
    [decode_json_content] or on the body of a 200 answer to a GET
    method: building a path or an error message never raises. *)
Theorem foreign_exceptions_come_from_decoding
    (op : Op) (s : State) (e : ForeignExc) :
  fst (call op s) = Raise (ExcForeign e) ->
  exists content : bytes,
    json_loads_utf8 content = Raise (ExcForeign e) /\
    (op = Call_decode_json_content content \/
     (is_get_operation op = true /\
      exists (r : Request) (resp : Response),
        sent_by (call op) s = [r] /\
        answer s r = inr (resp, content) /\
        resp_status resp = 200)).
Proof.
  intros Hres.
  pose proof (call_outcome op s) as Hout.
  pose proof (call_final_state op s) as Hfin.
  destruct op as [ content | p reqtype | vhost | | | | | vhost | vhost name
                 | vhost name | vhost | vhost name | name | ].
  1: { rewrite Hfin in Hres. cbn [fst] in Hres. exists content.
       split; [|now left].
       destruct (json_loads_utf8 content); [discriminate|].
       now injection Hres as ->. }
  all: destruct Hout as (r & Hsnd & Hfst); rewrite Hfst in Hres;
    destruct (answer s r) as [exc | [resp content]] eqn:Hans;
    [discriminate|];
    cbn zeta in Hres;
    destruct (resp_status resp =? 200) eqn:E200;
    try discriminate;
    try (destruct (resp_status resp =? 404); discriminate);
    try (destruct (resp_status resp =? 401); discriminate);
    try (destruct (resp_status resp =? 204); discriminate);
    apply Z.eqb_eq in E200;
    exists content;
    (split;
     [ destruct (json_loads_utf8 content); [discriminate|];
       now injection Hres as ->
     | right; split; [reflexivity|];
       exists r, resp; repeat split; auto using sent_by_after_request ]).
Qed.

Lemma sent_by_depends_on_self (op : Op) (s1 s2 : State) :
  self s1 = self s2 -> sent_by (call op) s1 = sent_by (call op) s2.
Proof.
  intros Hself. pose proof (call_request_path op) as Hpath.
  destruct op as [ content | p reqtype | | | | | | | | | | | | ];
    try (destruct Hpath as (p & _ & Hsnd);
         rewrite (sent_by_after_request _ _ _ (Hsnd s1)),
                 (sent_by_after_request _ _ _ (Hsnd s2)), Hself;
         reflexivity).
  - now rewrite !decode_sends_nothing.
  - destruct (request_of_do_call p reqtype s1) as [_ ->].
    now destruct (request_of_do_call p reqtype s2) as [_ ->].
Qed.

(** X13. What a call sends does not depend on the calls made before it
    on the same instance, whether they returned or raised: nothing is
    remembered from one call to the next. *)
Theorem calls_do_not_depend_on_history (op1 op2 : Op) (s : State) :
  sent_by (call op2) (snd (call op1 s)) = sent_by (call op2) s.
Proof.
  apply sent_by_depends_on_self, call_keeps_self.
Qed.

(** X14. A method that went to the network returns a value only on an
    answer of status 200, or of status 204 in the case of
    [purge_queue]; on a transport failure or any other status it
    raises. *)
Theorem return_needs_success_status
    (op : Op) (s : State) (r : Request) (v : PyVal) :
  sent_by (call op) s = [r] ->
  fst (call op s) = Return v ->
  exists (resp : Response) (content : bytes),
    answer s r = inr (resp, content) /\
    (resp_status resp = 200 \/
     (resp_status resp = 204 /\
      exists vhost name, op = Call_purge_queue vhost name)).
Proof.
  intros Hsent. outcome_of op s Hsent r.
  all: destruct (answer s r0) as [exc | [resp content]]; [discriminate|];
    cbn zeta; intros Hres; exists resp, content; (split; [reflexivity|]);
    destruct (resp_status resp =? 200) eqn:E200;
    [ apply Z.eqb_eq in E200; now left | ];
    try discriminate Hres;
    try (destruct (resp_status resp =? 404); discriminate Hres);
    try (destruct (resp_status resp =? 401); discriminate Hres).
  destruct (resp_status resp =? 204) eqn:E204; [|discriminate Hres].
  apply Z.eqb_eq in E204. right. split; [exact E204|]. eauto.
Qed.

(** X15. [get_connections] with no name, or with the empty string for a
    name, asks for the list of all connections, [<base>/connections]. *)
Theorem get_connections_without_name (name : option string) (s : State) :
  truthy name = false ->
  sent_by (get_connections name) s =
  [mkRequest (path_join (base_url (self s)) "connections") "GET"].
Proof.
  intros Hname. apply sent_by_after_request.
  run_methods. rewrite Hname. settle_state s.
Qed.

(** X16. On a client made by [__init__] for [server], the methods
    without arguments each ask for their own endpoint below
    [http://<server>/api/]: [whoami], [users], [overview], [vhosts] and
    [channels]. *)
Theorem argumentless_methods_urls
    (server uname passwd : string) (s : State) :
  Return (self s) = HTTPClient_init server uname passwd ->
  sent_by get_whoami s =
  [mkRequest ("http://" ++ server ++ "/api/whoami") "GET"] /\
  sent_by get_users s =
  [mkRequest ("http://" ++ server ++ "/api/users") "GET"] /\
  sent_by get_overview s =
  [mkRequest ("http://" ++ server ++ "/api/overview") "GET"] /\
  sent_by get_all_vhosts s =
  [mkRequest ("http://" ++ server ++ "/api/vhosts") "GET"] /\
  sent_by get_channels s =
  [mkRequest ("http://" ++ server ++ "/api/channels") "GET"].
Proof.
  intros Hinit.
  repeat split; rewrite <- (sent_by_fmap VJson).
  - apply (templated_request server uname passwd Call_get_whoami s
             "whoami" "whoami" "whoami" [] Hinit); reflexivity.
  - apply (templated_request server uname passwd Call_get_users s
             "all_users" "users" "users" [] Hinit); reflexivity.
  - apply (templated_request server uname passwd Call_get_overview s
             "overview" "overview" "overview" [] Hinit); reflexivity.
  - apply (templated_request server uname passwd Call_get_all_vhosts s
             "all_vhosts" "vhosts" "vhosts" [] Hinit); reflexivity.
  - apply (templated_request server uname passwd Call_get_channels s
             "all_channels" "channels" "channels" [] Hinit); reflexivity.
Qed.

End Properties.

(** ** Runs against the scripted broker *)

Section Runs.

Import Scripted.

#[local] Existing Instance world.

(** C4. [HTTPClient('localhost:55672', 'guest', 'guest')] asked for
    [get_connections('amqp-1')]: the specification gives the URL ending
    in [connections/amqp-1]; the request that goes out ends in
    [connections/%s], the placeholder still in it. *)
Theorem get_connections_uri_keeps_placeholder :
  HTTPClient_init "localhost:55672" "guest" "guest" = Return guest /\
  spec_request_uri "localhost:55672" (Call_get_connections (Some "amqp-1")) =
  Some "http://localhost:55672/api/connections/amqp-1" /\
  sent_by (call (Call_get_connections (Some "amqp-1")))
          (start [ok empty_list_body]) =
  [mkRequest "http://localhost:55672/api/connections/%s" "GET"].
Proof. repeat split. Qed.

Example get_connections_named_run :
  get_connections (Some "amqp-1") (start [ok empty_list_body]) =
  (Return JEmptyList,
   finished
     [mkRequest "http://localhost:55672/api/connections/%s" "GET"]).
Proof. reflexivity. Qed.

Example get_queue_run :
  get_queue "%2F" "jobs" (start [ok empty_list_body]) =
  (Return JEmptyList,
   finished
     [mkRequest "http://localhost:55672/api/queues/%2F/jobs" "GET"]).
Proof. reflexivity. Qed.

Example is_alive_default_run :
  is_alive is_alive_default_vhost (start [ok []]) =
  (Return true,
   finished
     [mkRequest "http://localhost:55672/api/aliveness-test/%2F" "GET"]).
Proof. reflexivity. Qed.

Example do_call_server_error_run :
  fst (do_call "http://localhost:55672/api/overview" "GET"
         (start [status_only 500 "Internal Server Error"])) =
  Raise (ExcHTTPError
           (mkHTTPError 500 "Internal Server Error"
              "http://localhost:55672/api/overview"
              "500 - Internal Server Error (http://localhost:55672/api/overview)")).
Proof. reflexivity. Qed.

Example do_call_timeout_run :
  fst (do_call "http://localhost:55672/api/overview" "GET" (start [])) =
  Raise (ExcNetworkError "Error: <class 'socket.timeout'> timed out").
Proof. reflexivity. Qed.

Example purge_queue_no_content_run :
  fst (purge_queue "%2F" "jobs" (start [no_content])) = Return true.
Proof. reflexivity. Qed.

Example purge_queue_not_found_run :
  purge_queue "%2F" "jobs" (start [not_found]) =
  (Raise (ExcHTTPError
            (mkHTTPError 404 "Not Found"
               "http://localhost:55672/api/queues/%2F/jobs/contents"
               "404 - Not Found (http://localhost:55672/api/queues/%2F/jobs/contents)")),
   finished
     [mkRequest "http://localhost:55672/api/queues/%2F/jobs/contents" "DELETE"]).
Proof. reflexivity. Qed.

Example get_queues_empty_vhost_run :
  sent_by (get_queues (Some "")) (start [ok empty_list_body]) =
  [mkRequest "http://localhost:55672/api/queues" "GET"].
Proof. reflexivity. Qed.

Example get_users_bad_json_run :
  fst (get_users (start [ok []])) =
  Raise (ExcForeign (mkForeignExc "<class 'ValueError'>"
                                  "No JSON object could be decoded")).
Proof. reflexivity. Qed.

(** [is_alive('nope')] against a broker without that vhost. *)
Lemma is_alive_vhost_not_found_witness :
  fst (do_call "http://localhost:55672/api/aliveness-test/nope" "GET"
         (start [not_found])) =
  Raise (ExcHTTPError
           (mkHTTPError 404 "Not Found"
              "http://localhost:55672/api/aliveness-test/nope"
              "404 - Not Found (http://localhost:55672/api/aliveness-test/nope)")) /\
  fst (is_alive "nope" (start [not_found])) =
  Raise (ExcAPIError "No vhost named 'nope'").
Proof.
  split; [reflexivity|].
  apply (is_alive_vhost_not_found "nope" (start [not_found])
           (mkHTTPError 404 "Not Found"
              "http://localhost:55672/api/aliveness-test/nope"
              "404 - Not Found (http://localhost:55672/api/aliveness-test/nope)"));
    reflexivity.
Defined.

(** [get_users()] with credentials that are not an admin's. *)
Lemma get_users_access_denied_witness :
  answer (start [unauthorized])
         (mkRequest "http://localhost:55672/api/users" "GET") =
  inr (mkResponse 401 "Unauthorized" [], []) /\
  fst (get_users (start [unauthorized])) =
  Raise (ExcAPIError "Only admin can access user data").
Proof.
  split; [reflexivity|].
  apply (get_users_access_denied (start [unauthorized])
           (mkResponse 401 "Unauthorized" []) []);
    reflexivity.
Defined.

(** [get_queue('%2F', 'jobs')] answered with the body [[]]. *)
Lemma get_operations_decode_json_witness :
  is_get_operation (Call_get_queue "%2F" "jobs") = true /\
  sent_by (call (Call_get_queue "%2F" "jobs")) (start [ok empty_list_body]) =
  [mkRequest "http://localhost:55672/api/queues/%2F/jobs" "GET"] /\
  answer (start [ok empty_list_body])
         (mkRequest "http://localhost:55672/api/queues/%2F/jobs" "GET") =
  inr (mkResponse 200 "OK" [], empty_list_body) /\
  resp_status (mkResponse 200 "OK" []) = 200 /\
  fst (call (Call_get_queue "%2F" "jobs") (start [ok empty_list_body])) =
  Return (VJson JEmptyList).
Proof.
  do 4 (split; [reflexivity|]).
  apply (get_operations_decode_json (Call_get_queue "%2F" "jobs")
           (start [ok empty_list_body])
           (mkRequest "http://localhost:55672/api/queues/%2F/jobs" "GET")
           (mkResponse 200 "OK" []) empty_list_body);
    reflexivity.
Defined.

(** [is_alive()] against a broker that is up. *)
Lemma is_alive_returns_true_witness :
  is_alive "%2F" (start [ok []]) =
  (Return (resp_status (mkResponse 200 "OK" []) =? 200),
   finished
     [mkRequest "http://localhost:55672/api/aliveness-test/%2F" "GET"]) /\
  (resp_status (mkResponse 200 "OK" []) =? 200) = true.
Proof.
  split; [reflexivity|].
  apply (is_alive_returns_true "%2F" (start [ok []])
           (finished
              [mkRequest "http://localhost:55672/api/aliveness-test/%2F" "GET"])).
  reflexivity.
Defined.

(** *** Runs for the properties shared by all methods *)

(** [purge_queue('%2F', 'jobs')] sends a DELETE. *)
Lemma only_purge_queue_deletes_witness :
  sent_by (call (Call_purge_queue "%2F" "jobs")) (start [no_content]) =
  [mkRequest "http://localhost:55672/api/queues/%2F/jobs/contents" "DELETE"] /\
  req_method
    (mkRequest "http://localhost:55672/api/queues/%2F/jobs/contents" "DELETE") =
  "DELETE".
Proof.
  split; [reflexivity|].
  apply (only_purge_queue_deletes (Call_purge_queue "%2F" "jobs")
           (start [no_content])).
  reflexivity.
Defined.

(** [get_overview()] when the broker does not answer. *)
Lemma transport_failure_reaches_caller_witness :
  sent_by (call Call_get_overview) (start []) =
  [mkRequest "http://localhost:55672/api/overview" "GET"] /\
  answer (start []) (mkRequest "http://localhost:55672/api/overview" "GET") =
  inl timed_out /\
  fst (call Call_get_overview (start [])) =
  Raise (ExcNetworkError "Error: <class 'socket.timeout'> timed out").
Proof.
  do 2 (split; [reflexivity|]).
  apply (transport_failure_reaches_caller Call_get_overview (start [])
           (mkRequest "http://localhost:55672/api/overview" "GET") timed_out);
    reflexivity.
Defined.

(** [get_queue('%2F', 'jobs')] for a queue that is not there. *)
Lemma unhandled_status_raises_HTTPError_witness :
  sent_by (call (Call_get_queue "%2F" "jobs")) (start [not_found]) =
  [mkRequest "http://localhost:55672/api/queues/%2F/jobs" "GET"] /\
  answer (start [not_found])
         (mkRequest "http://localhost:55672/api/queues/%2F/jobs" "GET") =
  inr (mkResponse 404 "Not Found" [], []) /\
  fst (call (Call_get_queue "%2F" "jobs") (start [not_found])) =
  Raise (ExcHTTPError
           (mkHTTPError 404 "Not Found"
              "http://localhost:55672/api/queues/%2F/jobs"
              "404 - Not Found (http://localhost:55672/api/queues/%2F/jobs)")).
Proof.
  do 2 (split; [reflexivity|]).
  apply (unhandled_status_raises_HTTPError (Call_get_queue "%2F" "jobs")
           (start [not_found])
           (mkRequest "http://localhost:55672/api/queues/%2F/jobs" "GET")
           (mkResponse 404 "Not Found" []) []);
    try reflexivity; cbn; lia.
Defined.

(** [get_users()] refused with a 401. *)
Lemma APIError_only_from_is_alive_and_get_users_witness :
  fst (call Call_get_users (start [unauthorized])) =
  Raise (ExcAPIError "Only admin can access user data") /\
  exists (r : Request) (resp : Response) (content : bytes),
    sent_by (call Call_get_users) (start [unauthorized]) = [r] /\
    answer (start [unauthorized]) r = inr (resp, content) /\
    ((exists vhost, Call_get_users = Call_is_alive vhost /\
                    resp_status resp = 404 /\
                    "Only admin can access user data" =
                    "No vhost named '" ++ vhost ++ "'") \/
     (Call_get_users = Call_get_users /\
      resp_status resp = 401 /\
      "Only admin can access user data" = "Only admin can access user data")).
Proof.
  split; [reflexivity|].
  apply (APIError_only_from_is_alive_and_get_users Call_get_users
           (start [unauthorized]) "Only admin can access user data").
  reflexivity.
Defined.

(** The URLs of the methods that name a queue or an exchange, for
    [HTTPClient('localhost:55672', 'guest', 'guest')]. *)
Lemma arguments_go_into_url_as_given_witness :
  Return (self (start [ok empty_list_body])) =
  HTTPClient_init "localhost:55672" "guest" "guest" /\
  sent_by (get_queue "%2F" "jobs") (start [ok empty_list_body]) =
  [mkRequest "http://localhost:55672/api/queues/%2F/jobs" "GET"].
Proof.
  split; [reflexivity|].
  apply (arguments_go_into_url_as_given "localhost:55672" "guest" "guest"
           "%2F" "jobs" (start [ok empty_list_body])).
  reflexivity.
Defined.

(** The HTTPError of [get_queue('%2F', 'jobs')] on a 404. *)
Lemma raised_HTTPError_describes_answer_witness :
  fst (call (Call_get_queue "%2F" "jobs") (start [not_found])) =
  Raise (ExcHTTPError
           (mkHTTPError 404 "Not Found"
              "http://localhost:55672/api/queues/%2F/jobs"
              "404 - Not Found (http://localhost:55672/api/queues/%2F/jobs)")) /\
  exists (r : Request) (resp : Response) (content : bytes),
    sent_by (call (Call_get_queue "%2F" "jobs")) (start [not_found]) = [r] /\
    answer (start [not_found]) r = inr (resp, content) /\
    404 = resp_status resp /\
    404 <> 200 /\
    "Not Found" = resp_reason resp /\
    "http://localhost:55672/api/queues/%2F/jobs" = req_uri r /\
    "404 - Not Found (http://localhost:55672/api/queues/%2F/jobs)" =
    str_of_int 404 ++ " - " ++ "Not Found" ++ " (" ++
    "http://localhost:55672/api/queues/%2F/jobs" ++ ")".
Proof.
  split; [reflexivity|].
  apply (raised_HTTPError_describes_answer (Call_get_queue "%2F" "jobs")
           (start [not_found])
           (mkHTTPError 404 "Not Found"
              "http://localhost:55672/api/queues/%2F/jobs"
              "404 - Not Found (http://localhost:55672/api/queues/%2F/jobs)")).
  reflexivity.
Defined.

(** [get_users()] answered 200 with an empty body. *)
Lemma foreign_exceptions_come_from_decoding_witness :
  fst (call Call_get_users (start [ok []])) =
  Raise (ExcForeign (mkForeignExc "<class 'ValueError'>"
                                  "No JSON object could be decoded")) /\
  exists content : bytes,
    json_loads_utf8 content =
    Raise (ExcForeign (mkForeignExc "<class 'ValueError'>"
                                    "No JSON object could be decoded")) /\
    (Call_get_users = Call_decode_json_content content \/
     (is_get_operation Call_get_users = true /\
      exists (r : Request) (resp : Response),
        sent_by (call Call_get_users) (start [ok []]) = [r] /\
        answer (start [ok []]) r = inr (resp, content) /\
        resp_status resp = 200)).
Proof.
  split; [reflexivity|].
  apply (foreign_exceptions_come_from_decoding Call_get_users (start [ok []])
           (mkForeignExc "<class 'ValueError'>"
                         "No JSON object could be decoded")).
  reflexivity.
Defined.

(** [purge_queue('%2F', 'jobs')] answered 204. *)
Lemma return_needs_success_status_witness :
  sent_by (call (Call_purge_queue "%2F" "jobs")) (start [no_content]) =
  [mkRequest "http://localhost:55672/api/queues/%2F/jobs/contents" "DELETE"] /\
  fst (call (Call_purge_queue "%2F" "jobs") (start [no_content])) =
  Return (VBool true) /\
  exists (resp : Response) (content : bytes),
    answer (start [no_content])
      (mkRequest "http://localhost:55672/api/queues/%2F/jobs/contents"
                 "DELETE") = inr (resp, content) /\
    (resp_status resp = 200 \/
     (resp_status resp = 204 /\
      exists vhost name,
        Call_purge_queue "%2F" "jobs" = Call_purge_queue vhost name)).
Proof.
  do 2 (split; [reflexivity|]).
  apply (return_needs_success_status (Call_purge_queue "%2F" "jobs")
           (start [no_content])
           (mkRequest "http://localhost:55672/api/queues/%2F/jobs/contents"
                      "DELETE")
           (VBool true));
    reflexivity.
Defined.

(** [get_connections('')] asks for all connections. *)
Lemma get_connections_without_name_witness :
  truthy (Some "") = false /\
  sent_by (get_connections (Some "")) (start [ok empty_list_body]) =
  [mkRequest "http://localhost:55672/api/connections" "GET"].
Proof.
  split; [reflexivity|].
  apply (get_connections_without_name (Some "") (start [ok empty_list_body])).
  reflexivity.
Defined.

(** The endpoints of the methods without arguments, for
    [HTTPClient('localhost:55672', 'guest', 'guest')]. *)
Lemma argumentless_methods_urls_witness :
  Return (self (start [ok empty_list_body])) =
  HTTPClient_init "localhost:55672" "guest" "guest" /\
  sent_by get_channels (start [ok empty_list_body]) =
  [mkRequest "http://localhost:55672/api/channels" "GET"].
Proof.
  split; [reflexivity|].
  apply (argumentless_methods_urls "localhost:55672" "guest" "guest"
           (start [ok empty_list_body])).
  reflexivity.
Defined.

End Runs.
